(** * Statistical data analysis app: the Streamlit script [app.py]

    The script is one top-to-bottom pass that reads widget values, forwards
    them to plotting and statistics libraries and renders the results.  It is
    embedded here as a function from the widget state of one run (and the
    files it can read) to the trace of what the run renders and of the
    statistical computations it requests.

    - Library calls that the script wraps in [try]/[except] (model fitting,
      the two-column correlation) are oracles of a [library] record; they may
      raise, and the call and its exception are recorded in the trace.
    - The parsers ([pd.read_csv], [pd.read_excel]) and [data.corr()] are
      oracles too and may raise; [data.describe()] raises on a frame without
      columns. None of these sits in a [try] that catches what it raises, so
      the exception ends the run.
    - The plotting calls ([px.line], ...) build symbolic values ([figure])
      that carry the arguments the script passes; they are taken to return.
    - Python floats are idealised as rationals ([Q]) plus NaN. *)

From Stdlib Require Import List String Ascii Bool Arith ZArith QArith Lia.
From Stdlib Require Import DecimalString.
Import ListNotations.
Local Open Scope string_scope.

(** ** Python values used by the script *)

(** A column label of a DataFrame: a header read from a CSV file is a string,
    a numeric header cell of a spreadsheet is read as an integer. *)
Inductive label :=
| LStr (s : string)
| LInt (z : Z).

Definition label_eqb (a b : label) : bool :=
  match a, b with
  | LStr s, LStr t => String.eqb s t
  | LInt x, LInt y => Z.eqb x y
  | _, _ => false
  end.

(** A selection is a label or Python's [None]. *)
Definition selection := option label.

Definition selection_eqb (a b : selection) : bool :=
  match a, b with
  | None, None => true
  | Some x, Some y => label_eqb x y
  | _, _ => false
  end.

(** Python truthiness, as used by [x_col and y_col]. *)
Definition truthy (s : selection) : bool :=
  match s with
  | None => false
  | Some (LStr t) => negb (String.eqb t "")
  | Some (LInt z) => negb (Z.eqb z 0)
  end.

Definition str_of_Z (z : Z) : string := NilEmpty.string_of_int (Z.to_int z).

Definition str_of_label (l : label) : string :=
  match l with
  | LStr s => s
  | LInt z => str_of_Z z
  end.

(** [str(v)], as an f-string field formats it. *)
Definition py_str (s : selection) : string :=
  match s with
  | None => "None"
  | Some l => str_of_label l
  end.

(** The same for a value that is a string or [None]. *)
Definition py_str_opt (s : option string) : string :=
  match s with
  | None => "None"
  | Some t => t
  end.

Inductive pyfloat :=
| Finite (q : Q)
| NaN.

(** ** DataFrames *)

Inductive cell :=
| number (q : Q)
| text (s : string).

Definition Series := list cell.

(** A DataFrame: its columns in order, each with its label. *)
Definition DataFrame := list (label * Series).

Definition columns (d : DataFrame) : list label := map fst d.

Definition is_text (c : cell) : bool :=
  match c with
  | text _ => true
  | number _ => false
  end.

(** A column has dtype [object] when it holds a string, and when it holds
    nothing at all (the columns of a file that has a header row only). *)
Definition is_object (s : Series) : bool :=
  match s with
  | [] => true
  | _ => existsb is_text s
  end.

(** [data.select_dtypes(include=[object]).columns] *)
Definition object_columns (d : DataFrame) : list label :=
  map fst (filter (fun c => is_object (snd c)) d).

(** ** Exceptions and the trace of a run *)

Definition exn := string.

Inductive result (A : Type) :=
| Ok (a : A)
| Raise (e : exn).
Arguments Ok {A} a.
Arguments Raise {A} e.

(** [data[col]]: the first column with that label, [KeyError] otherwise. *)
Fixpoint getitem (d : DataFrame) (c : selection) : result Series :=
  match d with
  | [] => Raise ("KeyError: " ++ py_str c)
  | (l, s) :: rest => if selection_eqb (Some l) c then Ok s else getitem rest c
  end.

(** Tables the script renders; each is a DataFrame method applied to [data]. *)
Inductive table :=
| DataFrame_head (d : DataFrame)
| DataFrame_corr (d : DataFrame)
| DataFrame_describe (d : DataFrame).

(** [data.describe()]: the table of the statistics; a frame without columns
    cannot be described. *)
Definition describe (d : DataFrame) : result table :=
  match d with
  | [] => Raise "Cannot describe a DataFrame without columns"
  | _ => Ok (DataFrame_describe d)
  end.

(** An argument of a plotly express call. *)
Inductive arg :=
| column (c : selection)     (* a column name, or [None] when left out *)
| data_index                 (* [data.index] *)
| array (v : list Q).        (* an array of numbers *)

(** Figures, as the calls that build them. The first argument of a [px]
    chart is the data frame, when one is passed. *)
Inductive figure :=
| px_line (data : option DataFrame) (x y : arg) (title : option string)
| px_bar (data : option DataFrame) (x y : arg) (title : option string)
| px_histogram (data : option DataFrame) (x y : arg) (title : option string)
| px_scatter (data : option DataFrame) (x y : arg) (title : option string)
| px_box (data : option DataFrame) (x y : arg) (title : option string)
| px_imshow (img : table) (title : string)
| add_scatter (fig : figure) (x : Series) (y : list pyfloat)
    (mode name color : string)
| update_layout (fig : figure) (title : option (option string))
    (xaxis_title yaxis_title : option string).

(** The statistical computations the script guards with [try]. *)
Inductive call :=
| sm_add_constant (x : Series)
| sm_OLS_fit (y : Series)
| model_predict
| model_summary
| Series_corr (x y : Series).

Inductive event :=
| st_title (s : string)
| st_markdown (s : string)
| st_subheader (s : string)
| st_dataframe (t : table)
| st_success (s : string)
| st_warning (s : string)
| st_error (s : string)
| st_plotly_chart (fig : figure)
| st_text (s : string)
| st_write (t : table)
| sidebar_header (s : string)
| sidebar_error (s : string)
| lib_call (c : call)
| lib_raised (e : exn).

Definition trace := list event.

(** A piece of script: its outcome and what it rendered on the way. *)
Definition script (A : Type) : Type := result A * trace.

Definition ret {A} (a : A) : script A := (Ok a, []).

Definition bind {A B} (m : script A) (f : A -> script B) : script B :=
  match m with
  | (Ok a, t) => let (r, t') := f a in (r, (t ++ t')%list)
  | (Raise e, t) => (Raise e, t)
  end.

Definition emit (e : event) : script unit := (Ok tt, [e]).

(** A guarded library computation: the call is recorded, and so is the
    exception when it raises. *)
Definition invoke {A} (c : call) (r : result A) : script A :=
  match r with
  | Ok a => (Ok a, [lib_call c])
  | Raise e => (Raise e, [lib_call c; lib_raised e])
  end.

(** A Python expression that may raise without calling the library. *)
Definition lift {A} (r : result A) : script A := (r, []).

(** [try: m except Exception as e: h e] *)
Definition try_except {A} (m : script A) (h : exn -> script A) : script A :=
  match m with
  | (Ok a, t) => (Ok a, t)
  | (Raise e, t) => let (r, t') := h e in (r, (t ++ t')%list)
  end.

Declare Scope script_scope.
Delimit Scope script_scope with script.
Notation "x <- m ;; k" := (bind m (fun x => k))
  (at level 61, m at next level, right associativity) : script_scope.
Notation "m ;; k" := (bind m (fun _ => k))
  (at level 61, right associativity) : script_scope.

Definition outcome {A} (m : script A) : result A := fst m.
Definition rendered {A} (m : script A) : trace := snd m.

(** ** Numbers: [np.linspace] and the [.4f] format *)

(** [np.linspace(start, stop, num)]: [num] samples [i * step + start] with
    [step = (stop - start) / (num - 1)], the last one set to [stop]. *)
Definition linspace_step (start stop : Q) (num : nat) : Q :=
  (stop - start) / inject_Z (Z.of_nat (num - 1)).

Definition linspace_sample (start stop : Q) (num i : nat) : Q :=
  if (Nat.eqb (S i) num && Nat.ltb 1 num)%bool then stop
  else inject_Z (Z.of_nat i) * linspace_step start stop num + start.

Definition np_linspace (start stop : Q) (num : nat) : list Q :=
  map (linspace_sample start stop num) (seq 0 num).

(** A string of [n] zeros. *)
Fixpoint zeros (n : nat) : string :=
  match n with
  | O => ""
  | S k => "0" ++ zeros k
  end.

(** [s] padded with zeros on the left up to [width] characters. *)
Definition pad_left (width : nat) (s : string) : string :=
  zeros (width - String.length s) ++ s.

(** Rounding [a / b] to the nearest integer, ties to even ([0 < b]). *)
Definition round_half_even (a b : Z) : Z :=
  let q := (a / b)%Z in
  let r := (a mod b)%Z in
  if (b <? 2 * r)%Z then (q + 1)%Z
  else if ((2 * r =? b)%Z && Z.odd q)%bool then (q + 1)%Z
  else q.

(** [f"{v:.4f}"] *)
Definition format_4f (v : pyfloat) : string :=
  match v with
  | NaN => "nan"
  | Finite q =>
      let n := round_half_even (Z.abs (Qnum q) * 10000) (Zpos (Qden q)) in
      (if (Qnum q <? 0)%Z then "-" else "")
        ++ str_of_Z (n / 10000) ++ "."
        ++ pad_left 4 (str_of_Z (n mod 10000))
  end.

(** ** The libraries and the widgets *)

Definition file := string.

(** What the script asks of pandas, scipy and statsmodels. [Design] is the
    regressor matrix with its constant column, [Model] a fitted model. *)
Record library (Design Model : Type) := {
  pd_read_csv : file -> result DataFrame;
  pd_read_excel : file -> result DataFrame;
  data_corr : DataFrame -> result table;
  norm_pdf : Q -> Q;
  add_constant : Series -> result Design;
  OLS_fit : Series -> Design -> result Model;
  predict : Model -> Design -> result (list pyfloat);
  summary : Model -> result string;
  corr : Series -> Series -> result pyfloat
}.
Arguments pd_read_csv {Design Model}.
Arguments pd_read_excel {Design Model}.
Arguments data_corr {Design Model}.
Arguments norm_pdf {Design Model}.
Arguments add_constant {Design Model}.
Arguments OLS_fit {Design Model}.
Arguments predict {Design Model}.
Arguments summary {Design Model}.
Arguments corr {Design Model}.

Inductive plot_type :=
| Line_Plot
| Bar_Chart
| Histogram
| Scatter_Plot
| Box_Plot
| Correlation_Heatmap
| Normal_Distribution_Curve
| OLS_Regression
| Correlation_Between_Two_Columns.

Definition plot_type_str (p : plot_type) : string :=
  match p with
  | Line_Plot => "Line Plot"
  | Bar_Chart => "Bar Chart"
  | Histogram => "Histogram"
  | Scatter_Plot => "Scatter Plot"
  | Box_Plot => "Box Plot"
  | Correlation_Heatmap => "Correlation Heatmap"
  | Normal_Distribution_Curve => "Normal Distribution Curve"
  | OLS_Regression => "OLS Regression"
  | Correlation_Between_Two_Columns => "Correlation Between Two Columns"
  end.

(** [st.selectbox(_, options, index)]: the option the user picked, the one at
    [index] while nothing was picked, [None] when there is no option. The
    widget offers the listed options only: a pick outside the list counts as
    no pick. *)
Definition selectbox {A} (options : list A) (index : nat) (pick : option nat)
  : option A :=
  match pick with
  | Some i => if Nat.ltb i (List.length options) then nth_error options i
              else nth_error options index
  | None => nth_error options index
  end.

(** [st.text_input(_, value)]: what the user typed, [value] otherwise
    ([value] is [None] only for a dataset without columns). *)
Definition text_input (value : option string) (typed : option string)
  : option string :=
  match typed with
  | Some s => Some s
  | None => value
  end.

(** The widget state of one run of the script. *)
Record session := {
  username_input : option string;
  uploaded_file : option (string * file);   (* name and content *)
  load_button : bool;
  plot_type_select : plot_type;
  x_select : option nat;
  y_select : option nat;
  hue_select : option nat;
  use_single_col_checkbox : bool;
  single_select : option nat;
  single_label_input : option string;
  plot_title_input : option string;
  xlabel_input : option string;
  ylabel_input : option string
}.

(** The values the script derives from the widgets (lines 52-77). *)
Record config := {
  plot_kind : plot_type;
  x_col : selection;
  y_col : selection;
  hue_col : selection;
  use_single_col : bool;
  single_column : selection;
  single_column_label : option string;
  default_title : string;
  plot_title : option string;
  xlabel : option string;
  ylabel : option string
}.

Definition default_title_of (p : plot_type) (single : bool)
    (x y : selection) (single_label : option string) : string :=
  if negb single
  then plot_type_str p ++ " of " ++ py_str x ++ " vs " ++ py_str y
  else plot_type_str p ++ " of " ++ py_str_opt single_label.

Definition configure (data : DataFrame) (w : session) : config :=
  let plot_type := plot_type_select w in
  let x_col := selectbox (columns data) 0 (x_select w) in
  let y_col0 := selectbox (columns data)
                  (if Nat.ltb 1 (List.length (columns data)) then 1 else 0)
                  (y_select w) in
  let hue_col := selectbox (LStr "None" :: object_columns data) 0
                   (hue_select w) in
  let use_single_col := use_single_col_checkbox w in
  let single_column :=
    if use_single_col then selectbox (columns data) 0 (single_select w)
    else None in
  let y_col := if use_single_col then None else y_col0 in
  let single_column_label :=
    if use_single_col
    then text_input (option_map str_of_label single_column)
           (single_label_input w)
    else None in
  let default_title :=
    default_title_of plot_type use_single_col x_col y_col
      single_column_label in
  {| plot_kind := plot_type;
     x_col := x_col;
     y_col := y_col;
     hue_col := hue_col;
     use_single_col := use_single_col;
     single_column := single_column;
     single_column_label := single_column_label;
     default_title := default_title;
     plot_title := text_input (Some default_title) (plot_title_input w);
     xlabel := text_input (option_map str_of_label x_col) (xlabel_input w);
     ylabel := text_input
                 (if negb use_single_col then option_map str_of_label y_col
                  else single_column_label)
                 (ylabel_input w) |}.

(** ** The script *)

Local Open Scope script_scope.

Definition endswith (s suffix : string) : bool :=
  let n := String.length s in
  let k := String.length suffix in
  (Nat.leb k n && String.eqb (substring (n - k) k s) suffix)%bool.

Definition ols_warning : string :=
  "⚠️ Please select two **different** columns and uncheck 'Use just one column for plot'.".

Definition corr_warning : string :=
  "⚠️ Please make sure you selected two **different** columns and unchecked 'Use just one column for plot'.".

Definition ols_error (e : exn) : string := "❌ Error fitting OLS model: " ++ e.

Definition corr_error (e : exn) : string :=
  "❌ Error computing correlation: " ++ e.

Definition corr_success (x y : selection) (v : pyfloat) : string :=
  "✅ Correlation between **" ++ py_str x ++ "** and **" ++ py_str y
    ++ "**: `" ++ format_4f v ++ "`".

(** The condition of lines 131 and 153:
    [not use_single_col and x_col and y_col and x_col != y_col]. *)
Definition two_columns_selected (c : config) : bool :=
  (negb (use_single_col c) && truthy (x_col c) && truthy (y_col c)
   && negb (selection_eqb (x_col c) (y_col c)))%bool.

Section Script.

Context {Design Model : Type}.
Variable L : library Design Model.

(** Lines 21-38: the uploaded file, or [data.csv] when the button is
    pressed; [disk] is the content of [data.csv] when the file exists. The
    handler of line 32 catches the missing file only: what a parser raises
    on a file it was given leaves the run. *)
Definition load (disk : option file) (w : session)
  : script (option DataFrame) :=
  emit (sidebar_header "Step 1: Upload File") ;;
  match uploaded_file w with
  | None =>
      if load_button w then
        match disk with
        | Some f =>
            data <- lift (pd_read_csv L f) ;;
            emit (st_success "Loaded 'data.csv' from the current directory.") ;;
            ret (Some data)
        | None =>
            emit (sidebar_error "⚠️ 'data.csv' not found in the directory.") ;;
            ret None
        end
      else ret None
  | Some (name, f) =>
      if endswith name ".csv"
      then data <- lift (pd_read_csv L f) ;; ret (Some data)
      else data <- lift (pd_read_excel L f) ;; ret (Some data)
  end.

(** Lines 40-45. *)
Definition preview (data : option DataFrame) : script unit :=
  match data with
  | Some d =>
      emit (st_subheader "📄 Dataset Preview") ;;
      emit (st_dataframe (DataFrame_head d))
  | None =>
      emit (st_warning "⚠️ No dataset loaded. Please upload a file or click the button to load 'data.csv'.")
  end.

(** The body of the [try] of the OLS branch (lines 133-145). *)
Definition ols_body (data : DataFrame) (c : config) : script unit :=
  sx <- lift (getitem data (x_col c)) ;;
  X <- invoke (sm_add_constant sx) (add_constant L sx) ;;
  sy <- lift (getitem data (y_col c)) ;;
  model <- invoke (sm_OLS_fit sy) (OLS_fit L sy X) ;;
  predictions <- invoke model_predict (predict L model X) ;;
  let fig := px_scatter (Some data) (column (x_col c)) (column (y_col c))
               (plot_title c) in
  sx' <- lift (getitem data (x_col c)) ;;
  let fig := add_scatter fig sx' predictions "lines" "OLS Line" "red" in
  let fig := update_layout fig (Some (plot_title c)) (xlabel c) (ylabel c) in
  emit (st_plotly_chart fig) ;;
  emit (st_subheader "📄 OLS Regression Summary") ;;
  s <- invoke model_summary (summary L model) ;;
  emit (st_text s).

(** The body of the [try] of the correlation branch (lines 155-156). *)
Definition corr_body (data : DataFrame) (c : config) : script unit :=
  sx <- lift (getitem data (x_col c)) ;;
  sy <- lift (getitem data (y_col c)) ;;
  correlation_value <- invoke (Series_corr sx sy) (corr L sx sy) ;;
  emit (st_success (corr_success (x_col c) (y_col c) correlation_value)).

(** [fig.update_layout(xaxis_title=xlabel, yaxis_title=ylabel)] followed by
    [st.plotly_chart(fig)]. *)
Definition show_labelled (fig : figure) (c : config) : script unit :=
  emit (st_plotly_chart (update_layout fig None (xlabel c) (ylabel c))).

(** Lines 82-160: the dispatch on the plot type. *)
Definition plot_output (data : DataFrame) (c : config) : script unit :=
  match plot_kind c with
  | Line_Plot =>
      show_labelled
        (if use_single_col c
         then px_line (Some data) data_index (column (single_column c))
                (plot_title c)
         else px_line (Some data) (column (x_col c)) (column (y_col c))
                (plot_title c)) c
  | Bar_Chart =>
      show_labelled
        (if use_single_col c
         then px_bar (Some data) data_index (column (single_column c))
                (plot_title c)
         else px_bar (Some data) (column (x_col c)) (column (y_col c))
                (plot_title c)) c
  | Histogram =>
      show_labelled
        (if use_single_col c
         then px_histogram (Some data) (column (single_column c))
                (column None) (plot_title c)
         else px_histogram (Some data) (column (x_col c)) (column (y_col c))
                (plot_title c)) c
  | Scatter_Plot =>
      show_labelled
        (px_scatter (Some data) (column (x_col c)) (column (y_col c))
           (plot_title c)) c
  | Box_Plot =>
      show_labelled
        (if use_single_col c
         then px_box (Some data) (column None) (column (single_column c))
                (plot_title c)
         else px_box (Some data) (column (x_col c)) (column (y_col c))
                (plot_title c)) c
  | Correlation_Heatmap =>
      corr <- lift (data_corr L data) ;;
      emit (st_plotly_chart (px_imshow corr "Correlation Heatmap"))
  | Normal_Distribution_Curve =>
      let x := np_linspace (-3) 3 100 in
      show_labelled
        (px_line None (array x) (array (map (norm_pdf L) x)) (plot_title c)) c
  | OLS_Regression =>
      if two_columns_selected c
      then try_except (ols_body data c)
             (fun e => emit (st_error (ols_error e)))
      else emit (st_warning ols_warning)
  | Correlation_Between_Two_Columns =>
      if two_columns_selected c
      then try_except (corr_body data c)
             (fun e => emit (st_error (corr_error e)))
      else emit (st_warning corr_warning)
  end.

(** Lines 162-164. *)
Definition statistics (data : DataFrame) : script unit :=
  emit (st_subheader "📈 Statistical Summary") ;;
  t <- lift (describe data) ;;
  emit (st_write t).

(** Lines 48-164: what runs once a dataset is loaded. *)
Definition analyse (data : DataFrame) (w : session) : script unit :=
  emit (sidebar_header "Step 2: Select Graph Type") ;;
  emit (sidebar_header "Step 3: Select Columns") ;;
  emit (sidebar_header "Step 4: Customize Labels") ;;
  let c := configure data w in
  emit (st_subheader "📊 Plot Output") ;;
  plot_output data c ;;
  statistics data.

Definition header (w : session) : script unit :=
  let username := text_input (Some "Zohaib Muaz") (username_input w) in
  emit (st_title "📊 STAT-402 Data Analysis App") ;;
  emit (st_markdown
          ("
**Student:** " ++ py_str_opt username ++ "  
**Course:** STAT-402  
**Instructor:** Mam Kiran Iftikhar  
**University:** University of Agriculture, Faisalabad
")).

(** The whole script, once a dataset has been read or not. *)
Definition page (data : option DataFrame) (w : session) : script unit :=
  preview data ;;
  match data with
  | Some d => analyse d w
  | None => ret tt
  end.

(** One run of [app.py]. *)
Definition app (disk : option file) (w : session) : script unit :=
  header w ;;
  data <- load disk w ;;
  page data w.

End Script.

(** ** What a trace shows *)

(** The [px] call at the root of a figure. *)
Fixpoint base_call (fig : figure) : figure :=
  match fig with
  | add_scatter f _ _ _ _ _ => base_call f
  | update_layout f _ _ _ => base_call f
  | _ => fig
  end.

(** The [x] and [y] arguments of the [px] call of a figure. *)
Definition plotted (fig : figure) : option (arg * arg) :=
  match base_call fig with
  | px_line _ x y _ | px_bar _ x y _ | px_histogram _ x y _
  | px_scatter _ x y _ | px_box _ x y _ => Some (x, y)
  | _ => None
  end.

(** The charts of a trace, in order. *)
Fixpoint charts (t : trace) : list figure :=
  match t with
  | [] => []
  | st_plotly_chart fig :: rest => fig :: charts rest
  | _ :: rest => charts rest
  end.

Definition is_lib_call (e : event) : bool :=
  match e with
  | lib_call _ => true
  | _ => false
  end.

Definition is_warning (e : event) : bool :=
  match e with
  | st_warning _ => true
  | _ => false
  end.

(** The last section of a page with a dataset. *)
Definition summary_section (data : DataFrame) : trace :=
  [st_subheader "📈 Statistical Summary"; st_write (DataFrame_describe data)].

(** The same widget state with another hue selection. *)
Definition with_hue (h : option nat) (w : session) : session :=
  {| username_input := username_input w;
     uploaded_file := uploaded_file w;
     load_button := load_button w;
     plot_type_select := plot_type_select w;
     x_select := x_select w;
     y_select := y_select w;
     hue_select := h;
     use_single_col_checkbox := use_single_col_checkbox w;
     single_select := single_select w;
     single_label_input := single_label_input w;
     plot_title_input := plot_title_input w;
     xlabel_input := xlabel_input w;
     ylabel_input := ylabel_input w |}.

(** The same configuration with another hue column. *)
Definition with_hue_col (h : selection) (c : config) : config :=
  {| plot_kind := plot_kind c;
     x_col := x_col c;
     y_col := y_col c;
     hue_col := h;
     use_single_col := use_single_col c;
     single_column := single_column c;
     single_column_label := single_column_label c;
     default_title := default_title c;
     plot_title := plot_title c;
     xlabel := xlabel c;
     ylabel := ylabel c |}.

(** ** A concrete library and concrete runs *)

Module Examples.

Definition Qsum (l : list Q) : Q := fold_right Qplus 0 l.

Definition mean (l : list Q) : Q :=
  Qsum l / inject_Z (Z.of_nat (List.length l)).

Definition centred (l : list Q) : list Q := map (fun v => v - mean l) l.

Definition dot (a b : list Q) : Q :=
  Qsum (map (fun p => fst p * snd p) (combine a b)).

(** A square root to twenty decimal places. *)
Definition sqrtQ (q : Q) : Q :=
  Qmake (Z.sqrt (Qnum q * 10 ^ 40 / Zpos (Qden q))) (10 ^ 20).

(** Pearson's coefficient of two samples. *)
Definition pearson (xs ys : list Q) : pyfloat :=
  let dx := centred xs in
  let dy := centred ys in
  let d := sqrtQ (Qred (dot dx dx * dot dy dy)) in
  if Qeq_bool d 0 then NaN else Finite (Qred (dot dx dy / d)).

Fixpoint to_numeric (s : Series) : result (list Q) :=
  match s with
  | [] => Ok []
  | number q :: rest =>
      match to_numeric rest with
      | Ok l => Ok (q :: l)
      | Raise e => Raise e
      end
  | text t :: _ => Raise ("could not convert string to float: '" ++ t ++ "'")
  end.

(** Least squares of [y] on [x] with an intercept: (intercept, slope). *)
Definition least_squares (xs ys : list Q) : Q * Q :=
  let dx := centred xs in
  let slope := if Qeq_bool (dot dx dx) 0 then 0
               else dot dx (centred ys) / dot dx dx in
  (Qred (mean ys - slope * mean xs), Qred slope).

Definition object_dtype : exn :=
  "Pandas data cast to numpy dtype of object. Check input data with np.asarray(data).".

(** A library that computes on numeric columns and raises on text ones;
    its parsers return [parsed] for every file. *)
Definition stats (parsed : DataFrame) : library (list Q) (Q * Q) :=
  {| pd_read_csv := fun _ => Ok parsed;
     pd_read_excel := fun _ => Ok parsed;
     data_corr := fun d =>
       if existsb (fun c => existsb is_text (snd c)) d
       then Raise "could not convert string to float"
       else Ok (DataFrame_corr d);
     norm_pdf := fun x => 1 / (1 + x * x);   (* a rational stand-in *)
     add_constant := fun s =>
       match to_numeric s with
       | Ok l => Ok l
       | Raise _ => Ok []
       end;
     OLS_fit := fun y X =>
       match to_numeric y with
       | Ok l => if Nat.eqb (List.length X) (List.length l)
                 then Ok (least_squares X l) else Raise object_dtype
       | Raise _ => Raise object_dtype
       end;
     predict := fun m X =>
       Ok (map (fun x => Finite (Qred (fst m + snd m * x))) X);
     summary := fun _ => Ok "OLS Regression Results";
     corr := fun x y =>
       match to_numeric x, to_numeric y with
       | Ok a, Ok b => Ok (pearson a b)
       | Raise e, _ | _, Raise e => Raise e
       end |}.

Definition numbers (l : list Z) : Series :=
  map (fun z => number (inject_Z z)) l.

(** A CSV file with headers [a], [b], [c]. *)
Definition abc : DataFrame :=
  [(LStr "a", numbers [1; 2; 3]%Z);
   (LStr "b", numbers [2; 4; 6]%Z);
   (LStr "c", [text "u"; text "v"; text "w"])].

(** A spreadsheet whose header cells are the numbers 0 and 1. *)
Definition sheet01 : DataFrame :=
  [(LInt 0, numbers [1; 2; 3]%Z);
   (LInt 1, numbers [2; 4; 6]%Z)].


Definition pick (p : plot_type) (x y : option nat) (single : bool) : session :=
  {| username_input := None;
     uploaded_file := Some ("data.csv", "a,b,c");
     load_button := false;
     plot_type_select := p;
     x_select := x;
     y_select := y;
     hue_select := None;
     use_single_col_checkbox := single;
     single_select := None;
     single_label_input := None;
     plot_title_input := None;
     xlabel_input := None;
     ylabel_input := None |}.

(** The same choices on an uploaded workbook. *)
Definition workbook (p : plot_type) (x y : option nat) (single : bool)
  : session :=
  {| username_input := None;
     uploaded_file := Some ("book.xlsx", "");
     load_button := false;
     plot_type_select := p;
     x_select := x;
     y_select := y;
     hue_select := None;
     use_single_col_checkbox := single;
     single_select := None;
     single_label_input := None;
     plot_title_input := None;
     xlabel_input := None;
     ylabel_input := None |}.

(** Nothing uploaded, the load button pressed. *)
Definition press (p : plot_type) : session :=
  {| username_input := None;
     uploaded_file := None;
     load_button := true;
     plot_type_select := p;
     x_select := None;
     y_select := None;
     hue_select := None;
     use_single_col_checkbox := false;
     single_select := None;
     single_label_input := None;
     plot_title_input := None;
     xlabel_input := None;
     ylabel_input := None |}.

End Examples.

(** ** More observations on a trace *)

Definition no_dataset_warning : string :=
  "⚠️ No dataset loaded. Please upload a file or click the button to load 'data.csv'.".

Definition file_not_found : string :=
  "⚠️ 'data.csv' not found in the directory.".

(** The banners of the main pane. *)
Definition is_banner (e : event) : bool :=
  match e with
  | st_success _ | st_warning _ | st_error _ => true
  | _ => false
  end.

Definition banners (t : trace) : trace := filter is_banner t.

Definition is_sidebar_error (e : event) : bool :=
  match e with
  | sidebar_error _ => true
  | _ => false
  end.

Definition is_text_event (e : event) : bool :=
  match e with
  | st_text _ => true
  | _ => false
  end.

(** The title given to the [px] call of a figure. *)
Definition chart_title (fig : figure) : option (option string) :=
  match base_call fig with
  | px_line _ _ _ t | px_bar _ _ _ t | px_histogram _ _ _ t
  | px_scatter _ _ _ t | px_box _ _ _ t => Some t
  | px_imshow _ t => Some (Some t)
  | _ => None
  end.

(** The axis titles set by the last [update_layout] of a figure. *)
Definition axis_titles (fig : figure)
  : option (option string * option string) :=
  match fig with
  | update_layout _ _ x y => Some (x, y)
  | _ => None
  end.

(** The plot types whose branch is one [px] call on the selections. *)
Definition plain_chart (p : plot_type) : bool :=
  match p with
  | Line_Plot | Bar_Chart | Histogram | Scatter_Plot | Box_Plot
  | Correlation_Heatmap | Normal_Distribution_Curve => true
  | OLS_Regression | Correlation_Between_Two_Columns => false
  end.

Definition guarded (p : plot_type) : bool := negb (plain_chart p).

(** The warning of a guarded branch. *)
Definition guard_warning (p : plot_type) : string :=
  match p with
  | OLS_Regression => ols_warning
  | _ => corr_warning
  end.

(** ** Proof steps for running a script case by case *)

Ltac run_script :=
  repeat (simpl;
          match goal with
          | |- context [match ?r with Ok _ => _ | Raise _ => _ end] =>
              destruct r
          end).

Ltac give_prefix :=
  first [ refine (ex_intro _ [] _); reflexivity
        | refine (ex_intro _ [_] _); reflexivity
        | refine (ex_intro _ [_; _] _); reflexivity
        | refine (ex_intro _ [_; _; _] _); reflexivity
        | refine (ex_intro _ [_; _; _; _] _); reflexivity
        | refine (ex_intro _ [_; _; _; _; _] _); reflexivity
        | refine (ex_intro _ [_; _; _; _; _; _] _); reflexivity ].

Ltac find_raised H :=
  simpl in H;
  repeat (destruct H as [H | H]; [try discriminate H|]);
  try contradiction H.

(** * Properties *)

(** ** Equality of selections and the guard of the two-column branches *)

Lemma label_eqb_refl (l : label) : label_eqb l l = true.
Proof.
  destruct l; simpl.
  - apply String.eqb_refl.
  - apply Z.eqb_refl.
Qed.

Lemma label_eqb_eq (a b : label) : label_eqb a b = true <-> a = b.
Proof.
  split.
  - destruct a, b; simpl; intro H; try discriminate.
    + apply String.eqb_eq in H. now subst.
    + apply Z.eqb_eq in H. now subst.
  - intros ->. apply label_eqb_refl.
Qed.

Lemma selection_eqb_eq (a b : selection) : selection_eqb a b = true <-> a = b.
Proof.
  destruct a as [x|], b as [y|]; simpl; split; intro H;
    try discriminate; try reflexivity.
  - apply label_eqb_eq in H. now subst.
  - inversion H. apply label_eqb_refl.
Qed.


(** The guard fails as soon as the two selections coincide or the
    single-column box is ticked. *)
Lemma guard_fails (c : config) :
  x_col c = y_col c \/ use_single_col c = true ->
  two_columns_selected c = false.
Proof.
  unfold two_columns_selected. intros [E | E].
  - rewrite E. rewrite (proj2 (selection_eqb_eq _ _) eq_refl).
    simpl. now rewrite !andb_false_r.
  - now rewrite E.
Qed.


(** ** The script monad *)



Lemma try_except_emit_ok (m : script unit) (f : exn -> string) :
  outcome (try_except m (fun e => emit (st_error (f e)))) = Ok tt.
Proof. destruct m as [[[]|e] t]; reflexivity. Qed.

Section Run.

Context {Design Model : Type}.
Variable L : library Design Model.

(** The dispatch raises only in the heatmap branch, with what [data.corr()]
    raises: the other calls that raise sit in a [try] whose handler renders a
    banner. *)
Lemma plot_output_outcome (data : DataFrame) (c : config) :
  outcome (plot_output L data c)
  = match plot_kind c with
    | Correlation_Heatmap =>
        match data_corr L data with
        | Ok _ => Ok tt
        | Raise e => Raise e
        end
    | _ => Ok tt
    end.
Proof.
  unfold plot_output.
  destruct (plot_kind c); try reflexivity;
    try (destruct (two_columns_selected c); try reflexivity;
         apply try_except_emit_ok).
  unfold bind, lift. now destruct (data_corr L data).
Qed.


(** The statistics section: its subheader, then the table, unless the frame
    has no column to describe. *)
Lemma statistics_eq (data : DataFrame) :
  statistics data
  = match data with
    | [] => (Raise "Cannot describe a DataFrame without columns",
             [st_subheader "📈 Statistical Summary"])
    | _ => (Ok tt, summary_section data)
    end.
Proof. now destruct data. Qed.

(** The page of a loaded dataset: the headers, the plot section and, when
    the plot section returned, the statistics section. *)
Lemma page_loaded (data : DataFrame) (w : session) :
  page L (Some data) w =
  (match outcome (plot_output L data (configure data w)) with
   | Ok _ => outcome (statistics data)
   | Raise e => Raise e
   end,
   ([st_subheader "📄 Dataset Preview"; st_dataframe (DataFrame_head data);
     sidebar_header "Step 2: Select Graph Type";
     sidebar_header "Step 3: Select Columns";
     sidebar_header "Step 4: Customize Labels";
     st_subheader "📊 Plot Output"]
    ++ rendered (plot_output L data (configure data w))
    ++ match outcome (plot_output L data (configure data w)) with
       | Ok _ => rendered (statistics data)
       | Raise _ => []
       end)%list).
Proof.
  unfold page, preview, analyse, bind, emit, outcome, rendered.
  destruct (plot_output L data (configure data w)) as [[[]|e] t];
    destruct (statistics data) as [r t']; cbn [fst snd app];
    rewrite ?app_nil_r; reflexivity.
Qed.



End Run.

Section Loading.

Context {Design Model : Type}.
Variable L : library Design Model.

Lemma app_rendered (disk : option file) (w : session) d t :
  load L disk w = (Ok d, t) ->
  app L disk w =
  (outcome (page L d w),
   (rendered (header w) ++ t ++ rendered (page L d w))%list).
Proof.
  intro E. unfold app. rewrite E.
  unfold header, bind, emit, outcome, rendered.
  destruct (page L d w) as [r t']. reflexivity.
Qed.

(** What a parser raises ends the run before the preview. *)
Lemma app_load_raises (disk : option file) (w : session) e t :
  load L disk w = (Raise e, t) ->
  app L disk w = (Raise e, (rendered (header w) ++ t)%list).
Proof.
  intro E. unfold app. rewrite E. reflexivity.
Qed.

End Loading.

(** ** The guarded two-column branches *)

(** C1. For every dataset and every configuration whose plot type is
    "OLS Regression" or "Correlation Between Two Columns", when the X and Y
    selections are the same or single-column mode is on, the dispatch renders
    the warning banner of that branch and nothing else: no model is fitted
    and no correlation is computed, whatever the dataset holds. *)
Theorem two_column_guard_warns {Design Model : Type}
    (L : library Design Model) (data : DataFrame) (c : config) :
  x_col c = y_col c \/ use_single_col c = true ->
  (plot_kind c = OLS_Regression ->
   plot_output L data c = (Ok tt, [st_warning ols_warning]))
  /\ (plot_kind c = Correlation_Between_Two_Columns ->
      plot_output L data c = (Ok tt, [st_warning corr_warning]))
  /\ (plot_kind c = OLS_Regression
      \/ plot_kind c = Correlation_Between_Two_Columns ->
      existsb is_lib_call (rendered (plot_output L data c)) = false).
Proof.
  intro H. apply guard_fails in H. unfold plot_output.
  repeat split.
  - intros ->. now rewrite H.
  - intros ->. now rewrite H.
  - intros [-> | ->]; now rewrite H.
Qed.

Lemma two_column_guard_warns_witness :
  plot_output (Examples.stats Examples.abc) Examples.abc
    (configure Examples.abc
       (Examples.pick OLS_Regression (Some 1%nat) (Some 1%nat) false))
  = (Ok tt, [st_warning ols_warning])
  /\ plot_output (Examples.stats Examples.abc) Examples.abc
       (configure Examples.abc
          (Examples.pick Correlation_Between_Two_Columns None None true))
     = (Ok tt, [st_warning corr_warning]).
Proof.
  split.
  - apply (two_column_guard_warns (Examples.stats Examples.abc) Examples.abc
             (configure Examples.abc
                (Examples.pick OLS_Regression (Some 1%nat) (Some 1%nat)
                   false))).
    + left. reflexivity.
    + reflexivity.
  - apply (two_column_guard_warns (Examples.stats Examples.abc) Examples.abc
             (configure Examples.abc
                (Examples.pick Correlation_Between_Two_Columns None None
                   true))).
    + right. reflexivity.
    + reflexivity.
Defined.

(** ** Branches without a guard *)

(** C10. The "Scatter Plot" branch does not look at single-column mode: with
    the mode on, the dispatch still calls the scatter plot, with X as [x] and
    the cleared (absent) Y as [y], and renders no warning. *)
Theorem scatter_has_no_single_column_guard {Design Model : Type}
    (L : library Design Model) (data : DataFrame) (w : session) :
  plot_type_select w = Scatter_Plot ->
  use_single_col_checkbox w = true ->
  let c := configure data w in
  plot_output L data c =
    (Ok tt,
     [st_plotly_chart
        (update_layout
           (px_scatter (Some data) (column (x_col c)) (column None)
              (plot_title c))
           None (xlabel c) (ylabel c))])
  /\ existsb is_warning (rendered (plot_output L data c)) = false.
Proof.
  intros P S c.
  assert (K : plot_kind c = Scatter_Plot) by exact P.
  assert (Y : y_col c = None) by (unfold c, configure; simpl; now rewrite S).
  unfold plot_output. rewrite K. unfold show_labelled, emit. rewrite Y.
  split; reflexivity.
Qed.

Lemma scatter_has_no_single_column_guard_witness :
  charts
    (rendered
       (plot_output (Examples.stats Examples.abc) Examples.abc
          (configure Examples.abc
             (Examples.pick Scatter_Plot None None true))))
  = [update_layout
       (px_scatter (Some Examples.abc) (column (Some (LStr "a")))
          (column None) (Some "Scatter Plot of a"))
       None (Some "a") (Some "a")].
Proof.
  destruct (scatter_has_no_single_column_guard
              (Examples.stats Examples.abc) Examples.abc
              (Examples.pick Scatter_Plot None None true)
              eq_refl eq_refl) as [E _].
  rewrite E. reflexivity.
Defined.

(** ** What the selections cannot influence *)

Lemma configure_with_hue (data : DataFrame) (w : session) (h : option nat) :
  configure data (with_hue h w)
  = with_hue_col
      (selectbox (LStr "None" :: object_columns data) 0 h)
      (configure data w).
Proof. reflexivity. Qed.

Lemma plot_output_with_hue_col {Design Model : Type}
    (L : library Design Model) (data : DataFrame) (c : config)
    (h : selection) :
  plot_output L data (with_hue_col h c) = plot_output L data c.
Proof. reflexivity. Qed.

(** C6. The correlation heatmap depends on the dataset only: the branch asks
    [data.corr()] of the dataset and, when it returns, renders its image
    under the fixed title "Correlation Heatmap", with no custom title or axis
    label applied; when it raises, the exception leaves the run, whatever
    the selections. So two configurations over the same dataset that differ
    in X, Y, title or axis labels render the same heatmap, and the same
    page. *)
Theorem heatmap_depends_on_dataset_only {Design Model : Type}
    (L : library Design Model) (data : DataFrame) (w w' : session) :
  plot_type_select w = Correlation_Heatmap ->
  plot_type_select w' = Correlation_Heatmap ->
  plot_output L data (configure data w) =
    match data_corr L data with
    | Ok corr =>
        (Ok tt,
         [st_plotly_chart (px_imshow corr "Correlation Heatmap")])
    | Raise e => (Raise e, [])
    end
  /\ plot_output L data (configure data w)
     = plot_output L data (configure data w')
  /\ page L (Some data) w = page L (Some data) w'.
Proof.
  intros P P'.
  assert (H : forall v, plot_type_select v = Correlation_Heatmap ->
            plot_output L data (configure data v) =
            match data_corr L data with
            | Ok corr =>
                (Ok tt,
                 [st_plotly_chart (px_imshow corr "Correlation Heatmap")])
            | Raise e => (Raise e, [])
            end).
  { intros v Pv. unfold plot_output.
    change (plot_kind (configure data v)) with (plot_type_select v).
    rewrite Pv. unfold bind, lift. now destruct (data_corr L data). }
  split; [|split].
  - now apply H.
  - now rewrite (H w P), (H w' P').
  - now rewrite !page_loaded, (H w P), (H w' P').
Qed.

Lemma heatmap_depends_on_dataset_only_witness :
  page (Examples.stats Examples.sheet01) (Some Examples.sheet01)
    (Examples.workbook Correlation_Heatmap (Some 0%nat) (Some 1%nat) false)
  = page (Examples.stats Examples.sheet01) (Some Examples.sheet01)
      (Examples.workbook Correlation_Heatmap (Some 1%nat) (Some 1%nat) true)
  /\ charts
       (rendered
          (plot_output (Examples.stats Examples.sheet01) Examples.sheet01
             (configure Examples.sheet01
                (Examples.workbook Correlation_Heatmap (Some 0%nat)
                   (Some 1%nat) false))))
     = [px_imshow (DataFrame_corr Examples.sheet01) "Correlation Heatmap"].
Proof.
  destruct (heatmap_depends_on_dataset_only
              (Examples.stats Examples.sheet01) Examples.sheet01
              (Examples.workbook Correlation_Heatmap (Some 0%nat)
                 (Some 1%nat) false)
              (Examples.workbook Correlation_Heatmap (Some 1%nat)
                 (Some 1%nat) true)
              eq_refl eq_refl) as (E & _ & P).
  split; [exact P|]. rewrite E. reflexivity.
Defined.

(** C9. The hue / group selection is read from its widget and never used:
    two runs that differ only in that selection render the same trace,
    charts, scalar results, summary table and banners alike; and a dispatch
    on two configurations that differ only in the hue column is the same. *)
Theorem hue_is_never_consumed {Design Model : Type}
    (L : library Design Model) (disk : option file) (data : DataFrame)
    (w : session) (h : option nat) (c : config) (hc : selection) :
  app L disk (with_hue h w) = app L disk w
  /\ page L (Some data) (with_hue h w) = page L (Some data) w
  /\ plot_output L data (with_hue_col hc c) = plot_output L data c.
Proof.
  assert (P : forall d, page L d (with_hue h w) = page L d w).
  { intros [d|]; [|reflexivity].
    rewrite !page_loaded, configure_with_hue, plot_output_with_hue_col.
    reflexivity. }
  split; [|split].
  - assert (E : load L disk (with_hue h w) = load L disk w) by reflexivity.
    destruct (load L disk w) as [[d|e] t] eqn:E'.
    + rewrite (app_rendered L disk _ d t E), (app_rendered L disk _ d t E').
      rewrite P. reflexivity.
    + now rewrite (app_load_raises L disk _ e t E),
        (app_load_raises L disk _ e t E').
  - apply P.
  - apply plot_output_with_hue_col.
Qed.

(** ** Single-column mode *)

(** C5. Whenever single-column mode is on, the Y selection handed to the
    dispatch is cleared ([None]) and the default title has the single-column
    form "{plot type} of {single-column label}"; with the mode off it has
    the form "{plot type} of {X} vs {Y}". The dispatch runs on that
    configuration, between the headers of the page and, when it returns,
    the statistics section. *)
Theorem single_column_clears_y {Design Model : Type}
    (L : library Design Model) (data : DataFrame) (w : session) :
  let c := configure data w in
  (use_single_col_checkbox w = true ->
   y_col c = None
   /\ default_title c
      = plot_type_str (plot_type_select w) ++ " of "
          ++ py_str_opt (single_column_label c))
  /\ (use_single_col_checkbox w = false ->
      default_title c
      = plot_type_str (plot_type_select w) ++ " of " ++ py_str (x_col c)
          ++ " vs " ++ py_str (y_col c))
  /\ (plot_title_input w = None -> plot_title c = Some (default_title c))
  /\ rendered (page L (Some data) w)
     = ([st_subheader "📄 Dataset Preview";
         st_dataframe (DataFrame_head data);
         sidebar_header "Step 2: Select Graph Type";
         sidebar_header "Step 3: Select Columns";
         sidebar_header "Step 4: Customize Labels";
         st_subheader "📊 Plot Output"]
        ++ rendered (plot_output L data c)
        ++ match outcome (plot_output L data c) with
           | Ok _ => rendered (statistics data)
           | Raise _ => []
           end)%list.
Proof.
  intro c. split; [|split; [|split]].
  - intro S. unfold c, configure, default_title_of. simpl.
    rewrite S. split; reflexivity.
  - intro S. unfold c, configure, default_title_of. simpl. now rewrite S.
  - intro T. unfold c, configure. simpl. now rewrite T.
  - unfold c. now rewrite page_loaded.
Qed.

Lemma single_column_clears_y_witness :
  y_col (configure Examples.abc (Examples.pick Box_Plot None None true))
  = None
  /\ default_title
       (configure Examples.abc (Examples.pick Box_Plot None None true))
     = "Box Plot of a"
  /\ default_title
       (configure Examples.abc (Examples.pick Box_Plot None None false))
     = "Box Plot of a vs b".
Proof.
  destruct (single_column_clears_y (Examples.stats Examples.abc) Examples.abc
              (Examples.pick Box_Plot None None true)) as [H _].
  destruct (H eq_refl) as [Y T].
  destruct (single_column_clears_y (Examples.stats Examples.abc) Examples.abc
              (Examples.pick Box_Plot None None false)) as [_ [H' _]].
  split; [|split].
  - exact Y.
  - rewrite T. reflexivity.
  - rewrite (H' eq_refl). reflexivity.
Defined.

(** In single-column mode the Histogram call names one column only. As
    stated for a secondary (weighting) column, the property fails: on the
    three-column file, with the mode on, the call is
    [px.histogram(data, x="a", title=...)] and its [y] is absent. *)
Lemma histogram_single_passes_no_secondary_column :
  ~ exists l : label,
      map plotted
        (charts
           (rendered
              (plot_output (Examples.stats Examples.abc) Examples.abc
                 (configure Examples.abc
                    (Examples.pick Histogram None None true)))))
      = [Some (column (Some (LStr "a")), column (Some l))].
Proof. intros [l H]. vm_compute in H. discriminate H. Qed.

(** C7 (amended). With single-column mode on, the Histogram call passes the
    selected single column as [x] and no secondary or weighting argument,
    as the Line, Bar and Box branches pass the single column alone; the
    Histogram call passes Y as second argument only with the mode off. *)
Theorem histogram_single_uses_one_column {Design Model : Type}
    (L : library Design Model) (data : DataFrame) (c : config) :
  (use_single_col c = true ->
   (plot_kind c = Histogram ->
    plot_output L data c =
      (Ok tt,
       [st_plotly_chart
          (update_layout
             (px_histogram (Some data) (column (single_column c))
                (column None) (plot_title c))
             None (xlabel c) (ylabel c))]))
   /\ (plot_kind c = Line_Plot ->
       map plotted (charts (rendered (plot_output L data c)))
       = [Some (data_index, column (single_column c))])
   /\ (plot_kind c = Bar_Chart ->
       map plotted (charts (rendered (plot_output L data c)))
       = [Some (data_index, column (single_column c))])
   /\ (plot_kind c = Box_Plot ->
       map plotted (charts (rendered (plot_output L data c)))
       = [Some (column None, column (single_column c))]))
  /\ (use_single_col c = false ->
      plot_kind c = Histogram ->
      plot_output L data c =
        (Ok tt,
         [st_plotly_chart
            (update_layout
               (px_histogram (Some data) (column (x_col c))
                  (column (y_col c)) (plot_title c))
               None (xlabel c) (ylabel c))])).
Proof.
  unfold plot_output, show_labelled, emit.
  split; [intro S; split; [|split; [|split]] | intro S];
    intros ->; rewrite S; reflexivity.
Qed.

Lemma histogram_single_uses_one_column_witness :
  map plotted
    (charts
       (rendered
          (plot_output (Examples.stats Examples.abc) Examples.abc
             (configure Examples.abc
                (Examples.pick Histogram None None true)))))
  = [Some (column (Some (LStr "a")), column None)]
  /\ map plotted
       (charts
          (rendered
             (plot_output (Examples.stats Examples.abc) Examples.abc
                (configure Examples.abc
                   (Examples.pick Histogram None None false)))))
     = [Some (column (Some (LStr "a")), column (Some (LStr "b")))].
Proof.
  destruct (histogram_single_uses_one_column (Examples.stats Examples.abc)
              Examples.abc
              (configure Examples.abc
                 (Examples.pick Histogram None None true))) as [H _].
  destruct (H eq_refl) as [E _].
  destruct (histogram_single_uses_one_column (Examples.stats Examples.abc)
              Examples.abc
              (configure Examples.abc
                 (Examples.pick Histogram None None false))) as [_ H'].
  split.
  - rewrite (E eq_refl). reflexivity.
  - rewrite (H' eq_refl eq_refl). reflexivity.
Defined.

(** ** The statistical summary *)




(** ** The sample points of the normal curve *)

Lemma np_linspace_length (start stop : Q) (num : nat) :
  List.length (np_linspace start stop num) = num.
Proof. unfold np_linspace. now rewrite length_map, length_seq. Qed.

Lemma np_linspace_nth (start stop : Q) (num i : nat) :
  (i < num)%nat ->
  nth i (np_linspace start stop num) 0 = linspace_sample start stop num i.
Proof.
  intro H. unfold np_linspace.
  rewrite (nth_indep _ 0 (linspace_sample start stop num 0))
    by now rewrite length_map, length_seq.
  rewrite map_nth, seq_nth by exact H. reflexivity.
Qed.

Lemma inject_Z_of_nat_nonzero (n : nat) :
  (0 < n)%nat -> ~ inject_Z (Z.of_nat n) == 0.
Proof.
  intros H E. unfold Qeq in E. simpl in E. lia.
Qed.

(** The samples are evenly spaced: the [i]-th is [start + i * step]. *)
Lemma np_linspace_affine (start stop : Q) (num i : nat) :
  (1 < num)%nat -> (i < num)%nat ->
  nth i (np_linspace start stop num) 0
  == start + inject_Z (Z.of_nat i) * linspace_step start stop num.
Proof.
  intros N I. rewrite np_linspace_nth by exact I.
  unfold linspace_sample.
  destruct (Nat.eqb (S i) num) eqn:E.
  - apply Nat.eqb_eq in E.
    assert (B : Nat.ltb 1 num = true) by now apply Nat.ltb_lt.
    rewrite B. simpl andb. cbv iota.
    unfold linspace_step.
    replace (num - 1)%nat with i by lia.
    field. apply inject_Z_of_nat_nonzero. lia.
  - simpl andb. cbv iota. ring.
Qed.

Lemma np_linspace_last (start stop : Q) (num : nat) :
  (1 < num)%nat -> nth (num - 1) (np_linspace start stop num) 0 = stop.
Proof.
  intro N. rewrite np_linspace_nth by lia. unfold linspace_sample.
  replace (S (num - 1)) with num by lia.
  rewrite Nat.eqb_refl. now rewrite (proj2 (Nat.ltb_lt 1 num) N).
Qed.

(** C3. With plot type "Normal Distribution Curve" the chart is a line
    through exactly 100 points: the x-values are evenly spaced from -3 to 3
    (the [i]-th is [-3 + i * 6/99]) and the y-values are the standard normal
    density [norm.pdf] at those x-values; the plotted points are the same
    for every dataset and every configuration. *)
Theorem normal_curve_points {Design Model : Type}
    (L : library Design Model) (data : DataFrame) (c : config) :
  plot_kind c = Normal_Distribution_Curve ->
  let xs := np_linspace (-3) 3 100 in
  plot_output L data c =
    (Ok tt,
     [st_plotly_chart
        (update_layout
           (px_line None (array xs) (array (map (norm_pdf L) xs))
              (plot_title c))
           None (xlabel c) (ylabel c))])
  /\ List.length xs = 100%nat
  /\ List.length (map (norm_pdf L) xs) = 100%nat
  /\ nth 0 xs 0 == -3
  /\ nth 99 xs 0 == 3
  /\ (forall i : nat, (i < 100)%nat ->
        nth i xs 0 == -3 + inject_Z (Z.of_nat i) * (6 # 99))
  /\ (forall i : nat, (i < 99)%nat -> nth (S i) xs 0 - nth i xs 0 == 6 # 99)
  /\ (forall (data' : DataFrame) (c' : config),
        plot_kind c' = Normal_Distribution_Curve ->
        map plotted (charts (rendered (plot_output L data' c')))
        = map plotted (charts (rendered (plot_output L data c)))).
Proof.
  intros K xs.
  assert (A : forall i : nat, (i < 100)%nat ->
            nth i xs 0 == -3 + inject_Z (Z.of_nat i) * (6 # 99)).
  { intros i I. unfold xs. rewrite np_linspace_affine by lia.
    unfold linspace_step. simpl Nat.sub. field. }
  assert (P : forall d k, plot_kind k = Normal_Distribution_Curve ->
            map plotted (charts (rendered (plot_output L d k)))
            = [Some (array xs, array (map (norm_pdf L) xs))]).
  { intros d k Kk. unfold plot_output. rewrite Kk. reflexivity. }
  split; [|split; [|split; [|split; [|split; [|split; [|split]]]]]].
  - unfold plot_output. rewrite K. reflexivity.
  - apply np_linspace_length.
  - rewrite length_map. apply np_linspace_length.
  - rewrite (A 0%nat) by lia. reflexivity.
  - rewrite (A 99%nat) by lia. reflexivity.
  - exact A.
  - intros i I. rewrite (A (S i)), (A i) by lia.
    rewrite Nat2Z.inj_succ. unfold Z.succ. rewrite inject_Z_plus. ring.
  - intros d k Kk. now rewrite (P d k Kk), (P data c K).
Qed.

Lemma normal_curve_points_witness :
  map plotted
    (charts
       (rendered
          (plot_output (Examples.stats Examples.abc) Examples.sheet01
             (configure Examples.sheet01
                (Examples.pick Normal_Distribution_Curve None None true)))))
  = map plotted
      (charts
         (rendered
            (plot_output (Examples.stats Examples.abc) Examples.abc
               (configure Examples.abc
                  (Examples.pick Normal_Distribution_Curve (Some 2%nat)
                     (Some 0%nat) false))))).
Proof.
  apply (normal_curve_points (Examples.stats Examples.abc) Examples.abc
           (configure Examples.abc
              (Examples.pick Normal_Distribution_Curve (Some 2%nat)
                 (Some 0%nat) false))
           eq_refl).
  reflexivity.
Defined.

(** ** Failures inside the [try] blocks *)

Section Guarded.

Context {Design Model : Type}.
Variable L : library Design Model.


Lemma corr_body_raised (data : DataFrame) (c : config) (e : exn) :
  In (lib_raised e) (rendered (corr_body L data c)) ->
  exists t, corr_body L data c = (Raise e, (t ++ [lib_raised e])%list).
Proof.
  unfold corr_body, bind, lift, invoke, emit, rendered.
  run_script; intro H; find_raised H;
    injection H as ->; give_prefix.
Qed.


End Guarded.




(** ** The two-column correlation *)

(** When the guard lets the correlation branch through and the library
    returns a coefficient, the banner shows it in the [.4f] format. *)
Lemma corr_two_columns_value {Design Model : Type}
    (L : library Design Model) (data : DataFrame) (c : config)
    (sx sy : Series) (v : pyfloat) :
  plot_kind c = Correlation_Between_Two_Columns ->
  two_columns_selected c = true ->
  getitem data (x_col c) = Ok sx ->
  getitem data (y_col c) = Ok sy ->
  corr L sx sy = Ok v ->
  plot_output L data c =
    (Ok tt,
     [lib_call (Series_corr sx sy);
      st_success
        ("✅ Correlation between **" ++ py_str (x_col c) ++ "** and **"
           ++ py_str (y_col c) ++ "**: `" ++ format_4f v ++ "`")]).
Proof.
  intros K G X Y V. unfold plot_output. rewrite K, G.
  unfold corr_body, bind, lift, invoke. now rewrite X, Y, V.
Qed.

(** On the columns [1, 2, 3] and [2, 4, 6] of a file with headers [a] and
    [b], a library that computes Pearson's coefficient makes the banner show
    [1.0000]. *)
Example corr_a_b_is_one :
  rendered
    (plot_output (Examples.stats Examples.abc) Examples.abc
       (configure Examples.abc
          (Examples.pick Correlation_Between_Two_Columns None None false)))
  = [lib_call
       (Series_corr (Examples.numbers [1; 2; 3]%Z)
          (Examples.numbers [2; 4; 6]%Z));
     st_success "✅ Correlation between **a** and **b**: `1.0000`"].
Proof. vm_compute. reflexivity. Qed.

(** C2, on a workbook whose header cells are the numbers 0 and 1. The two
    columns are distinct and numeric and single-column mode is off, yet the
    label 0 is falsy for the guard [x_col and y_col]: the run computes no
    correlation and renders the warning that asks for two different
    columns. *)
Theorem corr_on_columns_0_and_1_warns :
  let w := Examples.workbook Correlation_Between_Two_Columns None None false in
  let c := configure Examples.sheet01 w in
  load (Examples.stats Examples.sheet01) None w
  = (Ok (Some Examples.sheet01), [sidebar_header "Step 1: Upload File"])
  /\ x_col c = Some (LInt 0)
  /\ y_col c = Some (LInt 1)
  /\ use_single_col c = false
  /\ plot_output (Examples.stats Examples.sheet01) Examples.sheet01 c
     = (Ok tt, [st_warning corr_warning])
  /\ corr (Examples.stats Examples.sheet01)
       (Examples.numbers [1; 2; 3]%Z) (Examples.numbers [2; 4; 6]%Z)
     = Ok (Finite 1).
Proof. vm_compute. repeat split; reflexivity. Qed.

(** * Further properties of the script *)

(** ** Loading (lines 21-45) *)

Lemma substring_all (s : string) : substring 0 (String.length s) s = s.
Proof. induction s as [|a s IH]; simpl; [reflexivity | now rewrite IH]. Qed.

Lemma substring_skip (p s : string) (k : nat) :
  substring (String.length p) k (p ++ s) = substring 0 k s.
Proof. induction p as [|a p IH]; simpl; [reflexivity | exact IH]. Qed.

Lemma substring_split (s : string) (n k : nat) :
  (n + k = String.length s)%nat ->
  s = substring 0 n s ++ substring n k s.
Proof.
  revert n. induction s as [|a s IH]; intros n H; simpl in H.
  - assert (n = 0%nat) by lia. assert (k = 0%nat) by lia. subst. reflexivity.
  - destruct n as [|n].
    + simpl in H. subst k. simpl. now rewrite substring_all.
    + simpl. f_equal. apply IH. simpl in H. lia.
Qed.

Lemma length_append (a b : string) :
  String.length (a ++ b) = (String.length a + String.length b)%nat.
Proof. induction a as [|c a IH]; simpl; [reflexivity | now rewrite IH]. Qed.

(** [s.endswith(suffix)] holds exactly when [s] is some prefix followed by
    [suffix]; the comparison is by character, so it is case sensitive. *)
Lemma endswith_spec (s suffix : string) :
  endswith s suffix = true <-> exists p : string, s = p ++ suffix.
Proof.
  unfold endswith. rewrite andb_true_iff, Nat.leb_le, String.eqb_eq. split.
  - intros [K E].
    exists (substring 0 (String.length s - String.length suffix) s).
    pose proof (substring_split s
                  (String.length s - String.length suffix)
                  (String.length suffix)) as S.
    rewrite E in S. apply S. lia.
  - intros [p ->]. rewrite length_append. split; [lia|].
    replace (String.length p + String.length suffix - String.length suffix)%nat
      with (String.length p) by lia.
    rewrite substring_skip. apply substring_all.
Qed.

Section LoadingMore.

Context {Design Model : Type}.
Variable L : library Design Model.

(** X1. The run has no dataset exactly when nothing was uploaded and either
    the load button was not pressed or [data.csv] does not exist; the
    sidebar error is rendered exactly when nothing was uploaded, the button
    was pressed and the file does not exist. *)
Theorem dataset_absent_iff (disk : option file) (w : session) :
  (outcome (load L disk w) = Ok None
   <-> uploaded_file w = None /\ (load_button w = false \/ disk = None))
  /\ (existsb is_sidebar_error (rendered (load L disk w)) = true
      <-> uploaded_file w = None /\ load_button w = true /\ disk = None).
Proof.
  unfold load, bind, lift, emit, ret.
  destruct (uploaded_file w) as [[name f]|].
  - destruct (endswith name ".csv");
      [destruct (pd_read_csv L f) | destruct (pd_read_excel L f)]; simpl;
      (split; split; [discriminate | intros [H _]; discriminate H
                     | discriminate | intros [H _]; discriminate H]).
  - destruct (load_button w), disk as [f|];
      try destruct (pd_read_csv L f); simpl;
      (split; split; intro H; try discriminate H; try reflexivity;
       try (split; [reflexivity|]); auto;
       try (destruct H as [_ [H|H]]; discriminate H);
       try (destruct H as [_ [H H']]; try discriminate H; discriminate H')).
Qed.

(** X2. An uploaded file wins over the load button and over [data.csv], and
    is parsed by its name: as CSV when the name ends in [.csv] (lower case),
    as a spreadsheet otherwise. The dataset is what the parser returns; what
    the parser raises leaves the run, which stops after the header. No
    banner is rendered while loading. *)
Theorem upload_is_parsed_by_extension (disk : option file) (w : session)
    (name : string) (f : file) :
  uploaded_file w = Some (name, f) ->
  rendered (load L disk w) = [sidebar_header "Step 1: Upload File"]
  /\ ((exists p : string, name = p ++ ".csv") ->
      outcome (load L disk w)
      = match pd_read_csv L f with
        | Ok data => Ok (Some data)
        | Raise e => Raise e
        end)
  /\ (~ (exists p : string, name = p ++ ".csv") ->
      outcome (load L disk w)
      = match pd_read_excel L f with
        | Ok data => Ok (Some data)
        | Raise e => Raise e
        end)
  /\ (forall e : exn,
        outcome (load L disk w) = Raise e ->
        app L disk w
        = (Raise e,
           (rendered (header w)
            ++ [sidebar_header "Step 1: Upload File"])%list)).
Proof.
  intro U.
  assert (R : rendered (load L disk w)
              = [sidebar_header "Step 1: Upload File"]).
  { unfold load, bind, lift, ret. rewrite U.
    destruct (endswith name ".csv");
      [destruct (pd_read_csv L f) | destruct (pd_read_excel L f)];
      reflexivity. }
  split; [exact R|]. split; [|split].
  - intro H. apply endswith_spec in H.
    unfold load, bind, lift, ret. rewrite U, H.
    now destruct (pd_read_csv L f).
  - intro H. destruct (endswith name ".csv") eqn:E.
    + apply endswith_spec in E. contradiction.
    + unfold load, bind, lift, ret. rewrite U, E.
      now destruct (pd_read_excel L f).
  - intros e O. destruct (load L disk w) as [r t] eqn:E.
    simpl in O, R. subst r t. now apply app_load_raises.
Qed.

(** X3. With nothing uploaded, the load button pressed and [data.csv] in
    the directory: when the parser returns, the run is the header, the
    upload step, the success banner and then the page of the parsed file;
    when the parser raises (an empty or malformed file), the exception
    leaves the run after the upload step, with no banner. *)
Theorem default_file_is_loaded (w : session) (f : file) :
  uploaded_file w = None ->
  load_button w = true ->
  app L (Some f) w
  = match pd_read_csv L f with
    | Ok data =>
        (outcome (page L (Some data) w),
         (rendered (header w)
          ++ [sidebar_header "Step 1: Upload File";
              st_success "Loaded 'data.csv' from the current directory."]
          ++ rendered (page L (Some data) w))%list)
    | Raise e =>
        (Raise e,
         (rendered (header w)
          ++ [sidebar_header "Step 1: Upload File"])%list)
    end.
Proof.
  intros U B. destruct (pd_read_csv L f) as [data|e] eqn:E.
  - apply app_rendered. unfold load, bind, lift, emit, ret.
    now rewrite U, B, E.
  - apply app_load_raises. unfold load, bind, lift, emit, ret.
    now rewrite U, B, E.
Qed.

(** X4. Without a dataset the run renders the header, the upload step, the
    sidebar error if one is due, and the no-dataset warning, and stops: no
    chart, no table, no library computation. *)
Theorem nothing_runs_without_dataset (disk : option file) (w : session) :
  outcome (load L disk w) = Ok None ->
  app L disk w
  = (Ok tt,
     (rendered (header w) ++ rendered (load L disk w)
      ++ [st_warning no_dataset_warning])%list)
  /\ charts (rendered (app L disk w)) = []
  /\ existsb is_lib_call (rendered (app L disk w)) = false.
Proof.
  intro H.
  assert (E : app L disk w
              = (Ok tt,
                 (rendered (header w) ++ rendered (load L disk w)
                  ++ [st_warning no_dataset_warning])%list)).
  { destruct (load L disk w) as [r t] eqn:E. simpl in H. subst r.
    now rewrite (app_rendered L disk w None t E). }
  split; [exact E|]. rewrite E.
  unfold load, bind, lift, emit, ret in *.
  destruct (uploaded_file w) as [[name f]|].
  - destruct (endswith name ".csv");
      [destruct (pd_read_csv L f) | destruct (pd_read_excel L f)];
      discriminate H.
  - destruct (load_button w), disk as [f|];
      try destruct (pd_read_csv L f); try discriminate H;
      split; reflexivity.
Qed.

End LoadingMore.

Lemma upload_is_parsed_by_extension_witness :
  outcome
    (load (Examples.stats Examples.abc) (Some "x,y")
       (Examples.pick Line_Plot None None false))
  = Ok (Some Examples.abc).
Proof.
  destruct (upload_is_parsed_by_extension (Examples.stats Examples.abc)
              (Some "x,y") (Examples.pick Line_Plot None None false)
              "data.csv" "a,b,c" eq_refl) as (_ & H & _).
  apply H. exists "data". reflexivity.
Defined.

Lemma nothing_runs_without_dataset_witness :
  charts
    (rendered
       (app (Examples.stats Examples.abc) None (Examples.press Line_Plot)))
  = [].
Proof.
  apply (nothing_runs_without_dataset (Examples.stats Examples.abc) None
           (Examples.press Line_Plot) eq_refl).
Defined.

Lemma default_file_is_loaded_witness :
  app (Examples.stats Examples.abc) (Some "a,b,c") (Examples.press Line_Plot)
  = (outcome
       (page (Examples.stats Examples.abc) (Some Examples.abc)
          (Examples.press Line_Plot)),
     (rendered (header (Examples.press Line_Plot))
      ++ [sidebar_header "Step 1: Upload File";
          st_success "Loaded 'data.csv' from the current directory."]
      ++ rendered
           (page (Examples.stats Examples.abc) (Some Examples.abc)
              (Examples.press Line_Plot)))%list).
Proof.
  apply (default_file_is_loaded (Examples.stats Examples.abc)
           (Examples.press Line_Plot) "a,b,c" eq_refl eq_refl).
Defined.

(** ** The selections (lines 58-77) *)

Lemma selectbox_in {A} (options : list A) (index : nat) (pick : option nat)
    (a : A) :
  selectbox options index pick = Some a -> In a options.
Proof.
  unfold selectbox. destruct pick as [i|].
  - destruct (Nat.ltb i (List.length options)); apply nth_error_In.
  - apply nth_error_In.
Qed.

Lemma selectbox_none {A} (options : list A) (index : nat)
    (pick : option nat) :
  (index < List.length options \/ options = [])%nat ->
  (selectbox options index pick = None <-> options = []).
Proof.
  intro I. unfold selectbox. split.
  - intro H.
    assert (N : forall i, (i < List.length options)%nat ->
                nth_error options i <> None)
      by (intros i Hi; now apply nth_error_Some).
    destruct I as [I | I]; [|exact I]. exfalso.
    destruct pick as [i|].
    + destruct (Nat.ltb i (List.length options)) eqn:E.
      * apply Nat.ltb_lt in E. now apply (N i).
      * now apply (N index).
    + now apply (N index).
  - intros ->. destruct pick as [i|]; simpl; [|now destruct index].
    now destruct index.
Qed.

Lemma default_y_index_in_range (data : DataFrame) :
  ((if Nat.ltb 1 (List.length (columns data)) then 1 else 0)
   < List.length (columns data) \/ columns data = [])%nat.
Proof.
  destruct (Nat.ltb 1 (List.length (columns data))) eqn:E.
  - apply Nat.ltb_lt in E. left. lia.
  - destruct (columns data); [now right | left; simpl; lia].
Qed.

Lemma selections_in_columns (data : DataFrame) (w : session) :
  (forall l, x_col (configure data w) = Some l -> In l (columns data))
  /\ (forall l, y_col (configure data w) = Some l -> In l (columns data)).
Proof.
  unfold configure. simpl. split; intro l.
  - apply selectbox_in.
  - destruct (use_single_col_checkbox w); [discriminate|].
    apply selectbox_in.
Qed.

(** X5. The selections are always columns of the dataset: X, the effective
    Y and the single column, when set, are labels of [data.columns]; X is
    unset only for a dataset without columns, and so is Y with single-column
    mode off. *)
Theorem selections_are_columns (data : DataFrame) (w : session) :
  let c := configure data w in
  (forall l, x_col c = Some l -> In l (columns data))
  /\ (forall l, y_col c = Some l -> In l (columns data))
  /\ (forall l, single_column c = Some l -> In l (columns data))
  /\ (x_col c = None <-> columns data = [])
  /\ (use_single_col c = false -> (y_col c = None <-> columns data = []))
  /\ (use_single_col c = true ->
      (single_column c = None <-> columns data = [])).
Proof.
  intro c. unfold c, configure. simpl.
  split; [|split; [|split; [|split; [|split]]]].
  - intro l. apply selectbox_in.
  - intro l. destruct (use_single_col_checkbox w); [discriminate|].
    apply selectbox_in.
  - intro l. destruct (use_single_col_checkbox w); [|discriminate].
    apply selectbox_in.
  - apply selectbox_none. destruct (columns data); [now right|left; simpl; lia].
  - intros ->. apply selectbox_none, default_y_index_in_range.
  - intros ->. apply selectbox_none.
    destruct (columns data); [now right|left; simpl; lia].
Qed.

(** [data[col]] finds every label of [data.columns]. *)
Lemma getitem_ok (data : DataFrame) (l : label) :
  In l (columns data) -> exists s, getitem data (Some l) = Ok s.
Proof.
  induction data as [|[k s] rest IH]; simpl; [intros []|].
  intros [-> | H].
  - rewrite label_eqb_refl. now exists s.
  - destruct (label_eqb k l); [now exists s | now apply IH].
Qed.

Lemma getitem_in (data : DataFrame) (l : label) (s : Series) :
  getitem data (Some l) = Ok s -> In l (columns data).
Proof.
  induction data as [|[k t] rest IH]; simpl; [discriminate|].
  destruct (label_eqb k l) eqn:E.
  - apply label_eqb_eq in E. now left.
  - intro H. right. now apply IH.
Qed.

(** [data[col]] raises for a label that is no column, and for [None]. *)
Lemma getitem_raises (data : DataFrame) (c : selection) :
  (forall l, c = Some l -> ~ In l (columns data)) ->
  getitem data c = Raise ("KeyError: " ++ py_str c).
Proof.
  induction data as [|[k s] rest IH]; simpl; intro H; [reflexivity|].
  destruct c as [l|]; simpl.
  - destruct (label_eqb k l) eqn:E.
    + apply label_eqb_eq in E. subst. exfalso. apply (H l eq_refl). now left.
    + apply IH. intros l' [= <-] I. apply (H l eq_refl). now right.
  - apply IH. intros l' [=].
Qed.

(** Indexing the dataset by a label: [data[col]] returns a column
    exactly when the label is one of [data.columns] (the first column of
    that label), and raises a [KeyError] naming the label otherwise. *)
Theorem getitem_ok_iff (data : DataFrame) (l : label) :
  ((exists s, getitem data (Some l) = Ok s) <-> In l (columns data))
  /\ (~ In l (columns data) ->
      getitem data (Some l) = Raise ("KeyError: " ++ str_of_label l))
  /\ (forall s rest, getitem ((l, s) :: rest) (Some l) = Ok s).
Proof.
  split; [split|split].
  - intros [s H]. now apply (getitem_in data l s).
  - apply getitem_ok.
  - intro N. apply (getitem_raises data (Some l)). now intros l' [= <-].
  - intros s rest. simpl. now rewrite label_eqb_refl.
Qed.

(** ** When the guarded branches compute (lines 130-160) *)

Section GuardedMore.

Context {Design Model : Type}.
Variable L : library Design Model.

Lemma guard_false_warns (data : DataFrame) (c : config) :
  two_columns_selected c = false ->
  guarded (plot_kind c) = true ->
  plot_output L data c = (Ok tt, [st_warning (guard_warning (plot_kind c))]).
Proof.
  intros G K. unfold plot_output.
  destruct (plot_kind c); try discriminate K; now rewrite G.
Qed.

(** The columns that pass the guard can be read from the dataset. *)
Lemma selected_columns_exist (data : DataFrame) (w : session) :
  two_columns_selected (configure data w) = true ->
  exists sx sy,
    getitem data (x_col (configure data w)) = Ok sx
    /\ getitem data (y_col (configure data w)) = Ok sy.
Proof.
  intro G. unfold two_columns_selected in G.
  apply andb_true_iff in G. destruct G as [G _].
  apply andb_true_iff in G. destruct G as [G Ty].
  apply andb_true_iff in G. destruct G as [_ Tx].
  pose proof (selections_in_columns data w) as [X Y].
  destruct (x_col (configure data w)) as [lx|]; [|discriminate Tx].
  destruct (y_col (configure data w)) as [ly|]; [|discriminate Ty].
  destruct (getitem_ok data lx (X lx eq_refl)) as [sx Hx].
  destruct (getitem_ok data ly (Y ly eq_refl)) as [sy Hy].
  now exists sx, sy.
Qed.

(** X6. A statistical computation is requested exactly when the plot type
    is one of the two guarded ones and the guard holds: single-column mode
    off, both labels truthy, X different from Y. Every other run makes no
    such call. *)
Theorem computes_iff_guard (data : DataFrame) (w : session) :
  let c := configure data w in
  existsb is_lib_call (rendered (plot_output L data c))
  = (guarded (plot_kind c) && two_columns_selected c)%bool.
Proof.
  intro c.
  destruct (guarded (plot_kind c)) eqn:K.
  - destruct (two_columns_selected c) eqn:G.
    + destruct (selected_columns_exist data w G) as (sx & sy & X & Y).
      fold c in X, Y. unfold plot_output.
      destruct (plot_kind c); try discriminate K; rewrite G;
        unfold try_except, ols_body, corr_body, bind, lift, invoke, emit,
          rendered;
        rewrite X, Y; run_script; reflexivity.
    + now rewrite (guard_false_warns data c G K).
  - unfold plot_output, show_labelled, emit, bind, lift.
    destruct (plot_kind c); try discriminate K;
      try (destruct (use_single_col c)); try reflexivity.
    all: now destruct (data_corr L data).
Qed.


(** X8. A column whose label is the number 0 or the empty string cannot
    be used in a regression or a two-column correlation: with such a label
    as X or as Y the guard fails and the branch renders its warning, also
    when the two columns differ and single-column mode is off. *)
Theorem falsy_label_warns (data : DataFrame) (c : config) :
  x_col c = Some (LInt 0) \/ x_col c = Some (LStr "")
  \/ y_col c = Some (LInt 0) \/ y_col c = Some (LStr "") ->
  guarded (plot_kind c) = true ->
  plot_output L data c = (Ok tt, [st_warning (guard_warning (plot_kind c))]).
Proof.
  intros H K. apply guard_false_warns; [|exact K].
  unfold two_columns_selected.
  destruct H as [H | [H | [H | H]]]; rewrite H; simpl;
    now rewrite ?andb_false_r.
Qed.

(** X9. A dataset with at most one column never gets a regression or a
    two-column correlation: whatever is picked, X and Y are the same column
    (or unset), and the branch renders its warning. *)
Theorem one_column_always_warns (data : DataFrame) (w : session) :
  (List.length (columns data) <= 1)%nat ->
  guarded (plot_type_select w) = true ->
  plot_output L data (configure data w)
  = (Ok tt, [st_warning (guard_warning (plot_type_select w))]).
Proof.
  intros N K.
  apply (guard_false_warns data (configure data w)); [|exact K].
  apply guard_fails.
  destruct (use_single_col_checkbox w) eqn:S.
  - right. unfold configure. simpl. exact S.
  - left. unfold configure. simpl. rewrite S.
    destruct data as [|[l s] [|p rest]]; simpl in *; [| |lia].
    + now destruct (x_select w) as [[|i]|], (y_select w) as [[|j]|].
    + now destruct (x_select w) as [[|i]|], (y_select w) as [[|j]|].
Qed.

(** X10. When the guard lets the correlation branch through, the
    coefficient is asked of the library for the two selected columns of the
    dataset, X first; the branch then renders the success banner with the
    value in the [.4f] format, or the error banner with the message of the
    exception. *)
Theorem correlation_branch (data : DataFrame) (w : session) :
  let c := configure data w in
  plot_type_select w = Correlation_Between_Two_Columns ->
  two_columns_selected c = true ->
  exists sx sy : Series,
    getitem data (x_col c) = Ok sx
    /\ getitem data (y_col c) = Ok sy
    /\ plot_output L data c
       = (Ok tt,
          lib_call (Series_corr sx sy)
            :: match corr L sx sy with
               | Ok v => [st_success (corr_success (x_col c) (y_col c) v)]
               | Raise e => [lib_raised e; st_error (corr_error e)]
               end).
Proof.
  intros c P G.
  destruct (selected_columns_exist data w G) as (sx & sy & X & Y).
  fold c in X, Y. exists sx, sy. split; [exact X|]. split; [exact Y|].
  unfold plot_output.
  change (plot_kind c) with (plot_type_select w). rewrite P, G.
  unfold try_except, corr_body, bind, lift, invoke, emit.
  rewrite X, Y. now destruct (corr L sx sy).
Qed.

End GuardedMore.


Lemma falsy_label_warns_witness :
  plot_output (Examples.stats Examples.sheet01) Examples.sheet01
    (configure Examples.sheet01
       (Examples.workbook OLS_Regression None None false))
  = (Ok tt, [st_warning ols_warning]).
Proof.
  apply (falsy_label_warns (Examples.stats Examples.sheet01)
           Examples.sheet01
           (configure Examples.sheet01
              (Examples.workbook OLS_Regression None None false))).
  - left. reflexivity.
  - reflexivity.
Defined.

Lemma one_column_always_warns_witness :
  plot_output (Examples.stats Examples.abc)
    [(LStr "a", Examples.numbers [1; 2; 3]%Z)]
    (configure [(LStr "a", Examples.numbers [1; 2; 3]%Z)]
       (Examples.pick OLS_Regression (Some 0%nat) (Some 1%nat) false))
  = (Ok tt, [st_warning ols_warning]).
Proof.
  apply (one_column_always_warns (Examples.stats Examples.abc)
           [(LStr "a", Examples.numbers [1; 2; 3]%Z)]
           (Examples.pick OLS_Regression (Some 0%nat) (Some 1%nat) false)).
  - simpl. lia.
  - reflexivity.
Defined.

Lemma correlation_branch_witness :
  exists sx sy : Series,
    getitem Examples.abc (Some (LStr "b")) = Ok sx
    /\ getitem Examples.abc (Some (LStr "a")) = Ok sy
    /\ plot_output (Examples.stats Examples.abc) Examples.abc
         (configure Examples.abc
            (Examples.pick Correlation_Between_Two_Columns (Some 1%nat)
               (Some 0%nat) false))
       = (Ok tt,
          lib_call (Series_corr sx sy)
            :: match corr (Examples.stats Examples.abc) sx sy with
               | Ok v =>
                   [st_success
                      (corr_success (Some (LStr "b")) (Some (LStr "a")) v)]
               | Raise e => [lib_raised e; st_error (corr_error e)]
               end).
Proof.
  apply (correlation_branch (Examples.stats Examples.abc) Examples.abc
           (Examples.pick Correlation_Between_Two_Columns (Some 1%nat)
              (Some 0%nat) false) eq_refl eq_refl).
Defined.

(** ** What the plot section holds (lines 82-160) *)

Section PlotSection.

Context {Design Model : Type}.
Variable L : library Design Model.

(** X11. The plot section holds one chart and nothing else for the five
    chart types on the selections and for the normal curve; for the heatmap
    one chart when [data.corr()] returns and nothing when it raises; one
    banner and no chart for the two-column correlation; for the regression
    at most one chart and at most one banner, and at least one of the two
    (both when the model summary raises after the chart was rendered). *)
Theorem one_output_per_run (data : DataFrame) (c : config) :
  let t := rendered (plot_output L data c) in
  (plain_chart (plot_kind c) = true ->
   plot_kind c <> Correlation_Heatmap ->
   List.length t = 1%nat /\ List.length (charts t) = 1%nat)
  /\ (plot_kind c = Correlation_Heatmap ->
      match data_corr L data with
      | Ok corr =>
          t = [st_plotly_chart (px_imshow corr "Correlation Heatmap")]
      | Raise _ => t = []
      end)
  /\ (plot_kind c = Correlation_Between_Two_Columns ->
      charts t = [] /\ List.length (banners t) = 1%nat)
  /\ (plot_kind c = OLS_Regression ->
      (List.length (charts t) <= 1)%nat
      /\ (List.length (banners t) <= 1)%nat
      /\ (1 <= List.length (charts t) + List.length (banners t))%nat).
Proof.
  intro t. unfold t, plot_output, show_labelled, emit.
  split; [|split; [|split]].
  - intros K H. destruct (plot_kind c); try discriminate K;
      try contradiction;
      try (destruct (use_single_col c)); split; reflexivity.
  - intros ->. unfold bind, lift. now destruct (data_corr L data).
  - intros ->. destruct (two_columns_selected c); [|split; reflexivity].
    unfold try_except, corr_body, bind, lift, invoke, emit, rendered.
    run_script; split; reflexivity.
  - intros ->. destruct (two_columns_selected c); [|simpl; lia].
    unfold try_except, ols_body, bind, lift, invoke, emit, rendered.
    run_script; simpl; lia.
Qed.

(** X12. Every chart except the heatmap carries the configured title and
    axis labels, and what the user types in the three label fields is what
    the configuration holds; the heatmap has its fixed title and no axis
    label. *)
Theorem labels_reach_every_chart (data : DataFrame) (w : session) :
  let c := configure data w in
  (plot_kind c <> Correlation_Heatmap ->
   Forall (fun fig => chart_title fig = Some (plot_title c)
                      /\ axis_titles fig = Some (xlabel c, ylabel c))
     (charts (rendered (plot_output L data c))))
  /\ (plot_kind c = Correlation_Heatmap ->
      Forall (fun fig => chart_title fig = Some (Some "Correlation Heatmap")
                         /\ axis_titles fig = None)
        (charts (rendered (plot_output L data c))))
  /\ (forall s, plot_title_input w = Some s -> plot_title c = Some s)
  /\ (forall s, xlabel_input w = Some s -> xlabel c = Some s)
  /\ (forall s, ylabel_input w = Some s -> ylabel c = Some s).
Proof.
  intro c. split; [|split; [|split; [|split]]].
  - intro K. unfold plot_output, show_labelled, emit.
    destruct (plot_kind c); try contradiction;
      try (destruct (use_single_col c); simpl; repeat constructor);
      try (simpl; now repeat constructor);
      (destruct (two_columns_selected c); [|simpl; constructor]);
      unfold try_except, ols_body, corr_body, bind, lift, invoke, emit,
        rendered;
      run_script; repeat constructor.
  - intro K. unfold plot_output, bind, lift. rewrite K.
    destruct (data_corr L data); simpl; now repeat constructor.
  - intros s H. unfold c, configure. simpl. now rewrite H.
  - intros s H. unfold c, configure. simpl. now rewrite H.
  - intros s H. unfold c, configure. simpl. now rewrite H.
Qed.

(** X13. In the regression branch, once the guard holds: the chart is
    rendered exactly when building the regressors, fitting and predicting
    all return, and it is the scatter of X and Y with the line "OLS Line" of
    the predictions over the X column; the summary text is rendered exactly
    when the model summary returns as well. *)
Theorem ols_branch_outputs (data : DataFrame) (w : session) :
  let c := configure data w in
  let t := rendered (plot_output L data c) in
  plot_type_select w = OLS_Regression ->
  two_columns_selected c = true ->
  exists sx sy : Series,
    getitem data (x_col c) = Ok sx
    /\ getitem data (y_col c) = Ok sy
    /\ hd_error t = Some (lib_call (sm_add_constant sx))
    /\ charts t
       = match add_constant L sx with
         | Ok X =>
             match OLS_fit L sy X with
             | Ok model =>
                 match predict L model X with
                 | Ok predictions =>
                     [update_layout
                        (add_scatter
                           (px_scatter (Some data) (column (x_col c))
                              (column (y_col c)) (plot_title c))
                           sx predictions "lines" "OLS Line" "red")
                        (Some (plot_title c)) (xlabel c) (ylabel c)]
                 | Raise _ => []
                 end
             | Raise _ => []
             end
         | Raise _ => []
         end
    /\ filter is_text_event t
       = match add_constant L sx with
         | Ok X =>
             match OLS_fit L sy X with
             | Ok model =>
                 match predict L model X, summary L model with
                 | Ok _, Ok s => [st_text s]
                 | _, _ => []
                 end
             | Raise _ => []
             end
         | Raise _ => []
         end.
Proof.
  intros c t P G.
  destruct (selected_columns_exist data w G) as (sx & sy & X & Y).
  fold c in X, Y. exists sx, sy. split; [exact X|]. split; [exact Y|].
  unfold t, plot_output.
  change (plot_kind c) with (plot_type_select w). rewrite P, G.
  unfold try_except, ols_body, bind, lift, invoke, emit, rendered.
  rewrite X, Y.
  destruct (add_constant L sx) as [D|e]; simpl; [|now repeat split].
  destruct (OLS_fit L sy D) as [m|e]; simpl; [|now repeat split].
  destruct (predict L m D) as [p|e]; simpl; [|now repeat split].
  destruct (summary L m) as [s|e]; simpl; now repeat split.
Qed.

(** X14. What can end a run with an exception: a parser, [data.corr()] in
    the heatmap branch, and [data.describe()] on a frame without columns.
    Nothing else does: the failures of the model fitting and of the
    two-column correlation, and the missing [data.csv], are rendered as
    banners and the run goes on. *)
Theorem uncaught_exceptions (disk : option file) (w : session) :
  outcome (app L disk w)
  = match outcome (load L disk w) with
    | Raise e => Raise e
    | Ok None => Ok tt
    | Ok (Some data) =>
        match plot_type_select w, data_corr L data with
        | Correlation_Heatmap, Raise e => Raise e
        | _, _ =>
            match data with
            | [] => Raise "Cannot describe a DataFrame without columns"
            | _ => Ok tt
            end
        end
    end.
Proof.
  destruct (load L disk w) as [[[data|]|e] t] eqn:E.
  - rewrite (app_rendered L disk w _ t E), page_loaded.
    unfold outcome at 1 2 4. cbn [fst].
    rewrite plot_output_outcome, statistics_eq.
    change (plot_kind (configure data w)) with (plot_type_select w).
    unfold outcome. cbn [fst]. clear E.
    destruct (plot_type_select w); try destruct (data_corr L data);
      now destruct data.
  - now rewrite (app_rendered L disk w _ t E).
  - now rewrite (app_load_raises L disk w e t E).
Qed.

End PlotSection.

Lemma ols_branch_outputs_witness :
  exists sx sy : Series,
    getitem Examples.abc (Some (LStr "a")) = Ok sx
    /\ getitem Examples.abc (Some (LStr "b")) = Ok sy
    /\ hd_error
         (rendered
            (plot_output (Examples.stats Examples.abc) Examples.abc
               (configure Examples.abc
                  (Examples.pick OLS_Regression None None false))))
       = Some (lib_call (sm_add_constant sx)).
Proof.
  destruct (ols_branch_outputs (Examples.stats Examples.abc) Examples.abc
              (Examples.pick OLS_Regression None None false)
              eq_refl eq_refl) as (sx & sy & X & Y & H & _).
  exists sx, sy. split; [exact X|]. split; [exact Y|]. exact H.
Defined.

(** ** The hue picker (line 62) *)

Lemma is_object_spec (s : Series) :
  is_object s = true <-> s = [] \/ exists t, In (text t) s.
Proof.
  unfold is_object. destruct s as [|a s]; [split; auto|].
  rewrite existsb_exists. split.
  - intros [[q|t] [I T]]; [discriminate T|]. right. now exists t.
  - intros [H | [t T]]; [discriminate H|]. exists (text t). now split.
Qed.

Lemma object_columns_spec (data : DataFrame) (l : label) :
  In l (object_columns data)
  <-> exists s, In (l, s) data /\ (s = [] \/ exists t, In (text t) s).
Proof.
  unfold object_columns. rewrite in_map_iff. split.
  - intros [[k s] [E H]]. simpl in E. subst k.
    apply filter_In in H. destruct H as [H O]. simpl in O.
    exists s. split; [exact H|]. now apply is_object_spec.
  - intros [s [H O]]. exists (l, s). split; [reflexivity|].
    apply filter_In. split; [exact H|]. simpl. now apply is_object_spec.
Qed.

(** X15. The hue picker always holds a value: "None" while nothing is
    picked, and otherwise "None" or the label of a column of dtype object,
    that is a column of the dataset that holds a string or holds nothing at
    all (a file with a header row only); every such column can be
    picked. *)
Theorem hue_options (data : DataFrame) (w : session) :
  let c := configure data w in
  (hue_select w = None -> hue_col c = Some (LStr "None"))
  /\ (exists l, hue_col c = Some l
                /\ (l = LStr "None"
                    \/ exists s, In (l, s) data
                                 /\ (s = [] \/ exists t, In (text t) s)))
  /\ (forall l s, In (l, s) data -> (s = [] \/ exists t, In (text t) s) ->
        exists i, hue_col (configure data (with_hue (Some i) w)) = Some l).
Proof.
  intro c. unfold c, configure. simpl. split; [|split].
  - now intros ->.
  - destruct (selectbox (LStr "None" :: object_columns data) 0 (hue_select w))
      as [l|] eqn:E.
    + exists l. split; [reflexivity|].
      apply selectbox_in in E. destruct E as [E | E]; [now left|].
      right. now apply object_columns_spec.
    + apply selectbox_none in E; [discriminate E | left; simpl; lia].
  - intros l s H T.
    assert (I : In l (LStr "None" :: object_columns data)).
    { right. apply object_columns_spec. exists s. now split. }
    apply In_nth_error in I. destruct I as [i I]. exists i.
    assert (B : (i < List.length (LStr "None" :: object_columns data))%nat)
      by (apply nth_error_Some; congruence).
    apply Nat.ltb_lt in B.
    change (selectbox (LStr "None" :: object_columns data) 0 (Some i)
            = Some l).
    unfold selectbox. now rewrite B.
Qed.

(** ** The [.4f] format of the correlation banner (line 156) *)

Lemma round_half_even_nearest (a b : Z) :
  (0 < b)%Z -> (2 * Z.abs (a - b * round_half_even a b) <= b)%Z.
Proof.
  intro B. unfold round_half_even.
  pose proof (Z.div_mod a b ltac:(lia)) as D.
  pose proof (Z.mod_pos_bound a b B) as M.
  remember (a / b)%Z as k. remember (a mod b)%Z as r.
  clear Heqk Heqr. subst a.
  assert (Up : (b * k + r - b * (k + 1) = r - b)%Z) by ring.
  assert (Down : (b * k + r - b * k = r)%Z) by ring.
  destruct (Z.ltb_spec b (2 * r)).
  - rewrite Up. lia.
  - destruct (Z.eqb_spec (2 * r) b); cbn [andb].
    + destruct (Z.odd k); [rewrite Up | rewrite Down]; lia.
    + rewrite Down. lia.
Qed.

Lemma round_half_even_tie (a b : Z) :
  (0 < b)%Z -> (2 * (a mod b) = b)%Z ->
  Z.even (round_half_even a b) = true.
Proof.
  intros B T. unfold round_half_even.
  destruct (Z.ltb_spec b (2 * (a mod b))); [lia|].
  rewrite (proj2 (Z.eqb_eq _ _) T). simpl.
  destruct (Z.odd (a / b)) eqn:O.
  - rewrite Z.even_add, <- Z.negb_odd, O. reflexivity.
  - now rewrite <- Z.negb_odd, O.
Qed.

Lemma round_half_even_nonneg (a b : Z) :
  (0 <= a)%Z -> (0 < b)%Z -> (0 <= round_half_even a b)%Z.
Proof.
  intros A B. unfold round_half_even.
  pose proof (Z.div_pos a b A B).
  destruct (Z.ltb b (2 * (a mod b))); [lia|].
  destruct ((2 * (a mod b) =? b)%Z && Z.odd (a / b))%bool; lia.
Qed.

Lemma four_digits_at_most (m : Z) :
  (0 <= m < 10000)%Z -> (String.length (str_of_Z m) <= 4)%nat.
Proof.
  intro H.
  assert (A : forallb
                (fun k => Nat.leb (String.length (str_of_Z (Z.of_nat k))) 4)
                (seq 0 (Z.to_nat 10000)) = true) by (vm_compute; reflexivity).
  rewrite forallb_forall in A.
  specialize (A (Z.to_nat m)).
  rewrite Z2Nat.id in A by lia.
  apply Nat.leb_le, A, in_seq. lia.
Qed.

Lemma length_zeros (n : nat) : String.length (zeros n) = n.
Proof. induction n as [|n IH]; simpl; [reflexivity | now rewrite IH]. Qed.

Lemma length_pad_left (width : nat) (s : string) :
  (String.length s <= width)%nat -> String.length (pad_left width s) = width.
Proof.
  intro H. unfold pad_left. rewrite length_append, length_zeros. lia.
Qed.

Lemma str_of_Z_neg (p : positive) :
  str_of_Z (Zneg p) = "-" ++ str_of_Z (Zpos p).
Proof. reflexivity. Qed.

(** X16. The [.4f] format: NaN is shown as [nan]; a finite value is shown
    as an optional minus sign, the integer part, a point and exactly four
    digits, which are those of the integer nearest to the absolute value
    times 10000, ties going to the even one; an integer [z] is shown as [z]
    followed by [.0000]. *)
Theorem format_4f_four_decimals (q : Q) (z : Z) :
  format_4f NaN = "nan"
  /\ (exists (n : Z) (frac : string),
        (0 <= n)%Z
        /\ (2 * Z.abs (Z.abs (Qnum q) * 10000 - Zpos (Qden q) * n)
            <= Zpos (Qden q))%Z
        /\ ((2 * ((Z.abs (Qnum q) * 10000) mod Zpos (Qden q))
             = Zpos (Qden q))%Z -> Z.even n = true)
        /\ frac = pad_left 4 (str_of_Z (n mod 10000))
        /\ String.length frac = 4%nat
        /\ format_4f (Finite q)
           = (if (Qnum q <? 0)%Z then "-" else "")
               ++ str_of_Z (n / 10000) ++ "." ++ frac)
  /\ format_4f (Finite (inject_Z z)) = str_of_Z z ++ ".0000".
Proof.
  split; [reflexivity|]. split.
  - exists (round_half_even (Z.abs (Qnum q) * 10000) (Zpos (Qden q))).
    eexists. split; [|split; [|split; [|split; [reflexivity|split]]]].
    + apply round_half_even_nonneg; lia.
    + apply round_half_even_nearest. lia.
    + apply round_half_even_tie. lia.
    + apply length_pad_left, four_digits_at_most, Z.mod_pos_bound. lia.
    + reflexivity.
  - unfold format_4f, inject_Z. cbn [Qnum Qden].
    assert (R : round_half_even (Z.abs z * 10000) 1 = (Z.abs z * 10000)%Z).
    { unfold round_half_even. rewrite Z.mod_1_r, Z.div_1_r. reflexivity. }
    rewrite R, Z.div_mul, Z.mod_mul by lia.
    change (pad_left 4 (str_of_Z 0)) with "0000".
    destruct z as [|p|p].
    + reflexivity.
    + reflexivity.
    + change (Z.abs (Z.neg p)) with (Z.pos p).
      change ((Z.neg p <? 0)%Z) with true. cbv iota.
      rewrite str_of_Z_neg. generalize (str_of_Z (Z.pos p)). intro s.
      reflexivity.
Qed.
